(** * fast_api.py: the per-second proctoring pipeline

    A shallow embedding of [src/fast_api.py].  The external collaborators
    (OpenCV's decoder, MediaPipe's face detector, the HTTP download and the
    Azure blob store) are gathered in a [World] record and passed explicitly;
    the functions of the module are translated one by one and keep their
    names.

    Numbers.  Python ints are [Z].  Python floats ([fps], [bbox.xmin],
    [np.mean]) are embedded as rationals [Q], with the comparisons of the
    source kept as they are written: every finite float is a rational, the
    sums behind [np.mean] are sums of integers, and the rounding of a float
    division is left out.

    Exceptions.  The OpenCV calls raise [cv2.error] on an empty image, and
    [cv2.absdiff] on two images of different sizes; these are the exceptions
    modelled, with a small error monad.  The local file operations
    (temporary files, [cv2.imwrite], [os.remove]) are taken to succeed and
    leave no trace in the model. *)

From Stdlib Require Import ZArith QArith Qround List String Ascii Bool Lia.
From Stdlib Require Import DecimalString Sorted.
From Stdlib Require Import DecimalZ DecimalPos.
Import ListNotations.

Local Open Scope Z_scope.

(** ** Error monad *)

Inductive exn : Type :=
| cv2_error.

Inductive result (A : Type) : Type :=
| Ok (a : A)
| Raise (e : exn).

Arguments Ok {A} a.
Arguments Raise {A} e.

Definition bind {A B : Type} (m : result A) (k : A -> result B) : result B :=
  match m with
  | Ok a => k a
  | Raise e => Raise e
  end.

Notation "x <- m ;; k" := (bind m (fun x => k))
  (at level 61, m at next level, right associativity).

(** ** Python and NumPy primitives *)

(** [a < b] on floats. *)
Definition Qltb (a b : Q) : bool := negb (Qle_bool b a).

(** [int(x)]: truncation toward zero. *)
Definition py_int (x : Q) : Z :=
  if Qle_bool 0 x then Qfloor x else Qceiling x.

(** [str(n)] for an int. *)
Definition py_str_int (n : Z) : string :=
  NilZero.string_of_int (Z.to_int n).

(** [str(b).lower()] for a bool. *)
Definition py_str_bool_lower (b : bool) : string :=
  if b then "true"%string else "false"%string.

(** Truthiness of an optional string: [None] and [""] are falsy. *)
Definition py_truthy (s : option string) : bool :=
  match s with
  | Some EmptyString => false
  | Some _ => true
  | None => false
  end.

(** [s.split('.')[0]]: the part of [s] before its first dot. *)
Fixpoint split_dot_0 (s : string) : string :=
  match s with
  | EmptyString => EmptyString
  | String c s' => if Ascii.eqb c "."%char then EmptyString
                   else String c (split_dot_0 s')
  end.

(** [os.path.basename(p)]: the part of [p] after its last slash. *)
Fixpoint basename_from (acc p : string) : string :=
  match p with
  | EmptyString => acc
  | String c p' => if Ascii.eqb c "/"%char then basename_from p' p'
                   else basename_from acc p'
  end.

Definition basename (p : string) : string := basename_from p p.

Definition sumZ (l : list Z) : Z := fold_right Z.add 0 l.

(** [np.mean(a)] of a nonempty array of integers. *)
Definition np_mean (a : list Z) : Q :=
  (inject_Z (sumZ a) / inject_Z (Z.of_nat (List.length a)))%Q.

(** ** Frames and OpenCV primitives *)

(** A pixel holds its blue, green and red channels (8 bits each). *)
Definition Pixel : Type := (Z * Z * Z)%type.

(** A frame is the row-major list of its pixels. *)
Definition Frame : Type := list Pixel.

(** OpenCV's 8-bit luminance: 0.114 B + 0.587 G + 0.299 R in 15-bit fixed
    point, rounded to nearest. *)
Definition bgr2gray (p : Pixel) : Z :=
  let '(b, g, r) := p in
  Z.shiftr (b * 3735 + g * 19235 + r * 9798 + 16384) 15.

(** [cv2.cvtColor(frame, cv2.COLOR_BGR2GRAY)]; an empty image is refused. *)
Definition cvtColor_BGR2GRAY (frame : Frame) : result (list Z) :=
  match frame with
  | [] => Raise cv2_error
  | _ => Ok (map bgr2gray frame)
  end.

(** The channel swap of [cv2.COLOR_BGR2RGB]. *)
Definition bgr2rgb (p : Pixel) : Pixel :=
  let '(b, g, r) := p in (r, g, b).

(** [cv2.cvtColor(frame, cv2.COLOR_BGR2RGB)]; an empty image is refused. *)
Definition cvtColor_BGR2RGB (frame : Frame) : result Frame :=
  match frame with
  | [] => Raise cv2_error
  | _ => Ok (map bgr2rgb frame)
  end.

(** [cv2.absdiff(a, b)]; the two images must have the same size. *)
Fixpoint absdiff (a b : list Z) : result (list Z) :=
  match a, b with
  | [], [] => Ok []
  | x :: a', y :: b' => d <- absdiff a' b' ;; Ok (Z.abs (x - y) :: d)
  | _, _ => Raise cv2_error
  end.

(** ** The module's functions *)

Definition default_threshold : Q := 50%Q.

(** [detect_tab_switch(prev_frame, current_frame, threshold=50)] *)
Definition detect_tab_switch (prev_frame current_frame : option Frame)
    (threshold : Q) : result bool :=
  match prev_frame, current_frame with
  | Some prev, Some curr =>
      prev_gray <- cvtColor_BGR2GRAY prev ;;
      curr_gray <- cvtColor_BGR2GRAY curr ;;
      diff <- absdiff prev_gray curr_gray ;;
      let mean_diff := np_mean diff in
      Ok (Qltb threshold mean_diff)
  | _, _ => Ok false
  end.

(** One MediaPipe detection: the horizontal origin of its relative bounding
    box. *)
Record Detection : Type := { xmin : Q }.

(** What [cv2.VideoCapture(path)] gives: the declared frame rate and the
    frames that successive [cap.read()] calls return before [ret] is false
    (none when the capture cannot be opened). *)
Record VideoCapture : Type := {
  CAP_PROP_FPS : Q;
  cap_frames : list Frame
}.

(** The collaborators of one run. *)
Record World : Type := {
  (** [cv2.VideoCapture(video_path)] *)
  open_video : string -> VideoCapture;
  (** [face_detection.process(rgb_frame).detections], [None] read as [[]] *)
  face_detections : Frame -> list Detection;
  (** whether [blob_client.upload_blob] succeeds for this blob name *)
  upload_blob_ok : string -> bool;
  account_name : string;
  AZURE_CONTAINER_NAME : string;
  (** status code of [requests.get(url)] and the temporary file written *)
  http_status : string -> Z;
  temp_file : string -> string
}.

(** [download_video(url)] *)
Definition download_video (w : World) (url : string) : option string :=
  if http_status w url =? 200 then Some (temp_file w url) else None.

(** [upload_to_azure(file_path, blob_name)]: every failure is caught and
    reported as [None]. *)
Definition upload_to_azure (w : World) (blob_name : string) : option string :=
  if upload_blob_ok w blob_name
  then Some ("https://" ++ account_name w ++ ".blob.core.windows.net/"
             ++ AZURE_CONTAINER_NAME w ++ "/" ++ blob_name)%string
  else None.

Definition screenshot_name (video_name : string) (timestamp : Z) : string :=
  (video_name ++ "_screenshot_" ++ py_str_int timestamp ++ ".jpg")%string.

(** [save_screenshot(frame, timestamp, video_name)] *)
Definition save_screenshot (w : World) (frame : Frame) (timestamp : Z)
    (video_name : string) : option string :=
  upload_to_azure w (screenshot_name video_name timestamp).

(** One entry of [results_list]. *)
Record ObservationRecord : Type := {
  time : Z;
  head_position : string;
  multiple_face_detection : string;
  tab_switched : string;
  screenshot_url : option string
}.

(** The body of [for detection in results.detections]. *)
Definition head_of_detection (detection : Detection) : string :=
  if Qltb (xmin detection) (3 # 10) then "left"%string
  else if Qltb (7 # 10) (xmin detection) then "right"%string
  else "forward"%string.

(** Lines 111-130: the classification of one sampled frame. *)
Definition classify (detections : list Detection) : string * string :=
  let head_position := "unknown"%string in
  let multiple_face_detection := "false"%string in
  match detections with
  | _ :: _ =>
      let face_count := Z.of_nat (List.length detections) in
      let multiple_face_detection :=
        if face_count >? 1 then "true"%string else multiple_face_detection in
      let head_position :=
        fold_left (fun _ detection => head_of_detection detection)
                  detections head_position in
      (head_position, multiple_face_detection)
  | [] => ("away"%string, multiple_face_detection)
  end.

(** Line 134: the condition under which a screenshot is taken. *)
Definition should_capture (head_position : string) (tab_switched : bool)
    (multiple_face_detection : string) : bool :=
  (String.eqb head_position "forward"
   && (tab_switched || String.eqb multiple_face_detection "true"))
  || negb (String.eqb head_position "forward").

(** The variables of the loop of [analyze_video_stream], and the calls of
    [save_screenshot] made so far (timestamp and blob name), oldest first. *)
Record loop_state : Type := {
  frame_count : Z;
  last_processed_second : Z;
  prev_frame : option Frame;
  results_list : list ObservationRecord;
  screenshot_calls : list (Z * string)
}.

Definition initial_state : loop_state := {|
  frame_count := 0;
  last_processed_second := -1;
  prev_frame := None;
  results_list := [];
  screenshot_calls := []
|}.

(** [fps = cap.get(cv2.CAP_PROP_FPS)] with its fallback. *)
Definition effective_fps (cap : VideoCapture) : Q :=
  let fps := CAP_PROP_FPS cap in
  if Qle_bool fps 0 then 30%Q else fps.

(** One iteration of the [while] loop, for a frame read with [ret] true. *)
Definition loop_body (w : World) (fps : Q) (video_name : string)
    (st : loop_state) (frame : Frame) : result loop_state :=
  let frame_count := frame_count st + 1 in
  let timestamp_in_seconds := py_int (inject_Z frame_count / fps)%Q in
  if timestamp_in_seconds >? last_processed_second st then
    let last_processed_second := timestamp_in_seconds in
    tab_switched <- detect_tab_switch (prev_frame st) (Some frame)
                                      default_threshold ;;
    rgb_frame <- cvtColor_BGR2RGB frame ;;
    let detections := face_detections w rgb_frame in
    let '(head_position, multiple_face_detection) := classify detections in
    let capture :=
      should_capture head_position tab_switched multiple_face_detection in
    let azure_url :=
      if capture
      then save_screenshot w frame timestamp_in_seconds video_name
      else None in
    let calls :=
      if capture
      then [(timestamp_in_seconds,
             screenshot_name video_name timestamp_in_seconds)]
      else [] in
    Ok {| frame_count := frame_count;
          last_processed_second := last_processed_second;
          prev_frame := Some frame;
          results_list := results_list st ++
            [{| time := timestamp_in_seconds;
                head_position := head_position;
                multiple_face_detection := multiple_face_detection;
                tab_switched := py_str_bool_lower tab_switched;
                screenshot_url :=
                  if py_truthy azure_url then azure_url else None |}];
          screenshot_calls := screenshot_calls st ++ calls |}
  else
    Ok {| frame_count := frame_count;
          last_processed_second := last_processed_second st;
          prev_frame := prev_frame st;
          results_list := results_list st;
          screenshot_calls := screenshot_calls st |}.

(** The [while cap.isOpened()] loop over the frames of the capture. *)
Fixpoint run_loop (w : World) (fps : Q) (video_name : string)
    (st : loop_state) (frames : list Frame) : result loop_state :=
  match frames with
  | [] => Ok st
  | frame :: rest =>
      st' <- loop_body w fps video_name st frame ;;
      run_loop w fps video_name st' rest
  end.

(** The whole run of [analyze_video_stream], final loop state included. *)
Definition analyze_video_run (w : World) (video_path : string)
    (input_seconds : Z) : result loop_state :=
  let cap := open_video w video_path in
  let fps := effective_fps cap in
  let video_name := split_dot_0 (basename video_path) in
  run_loop w fps video_name initial_state (cap_frames cap).

(** [analyze_video_stream(video_path, input_seconds)] *)
Definition analyze_video_stream (w : World) (video_path : string)
    (input_seconds : Z) : result (list ObservationRecord) :=
  st <- analyze_video_run w video_path input_seconds ;;
  Ok (results_list st).

(** The value returned by [analyze_video_endpoint]. *)
Inductive endpoint_result : Type :=
| error (message : string)
| analysis_result (result : list ObservationRecord).

(** [analyze_video_endpoint(video_url, input_seconds)] *)
Definition analyze_video_endpoint (w : World) (video_url : option string)
    (input_seconds : Z) : result endpoint_result :=
  match video_url with
  | None | Some EmptyString => Ok (error "No video URL provided")
  | Some url =>
      match download_video w url with
      | None => Ok (error "Failed to download video from the URL provided")
      | Some video_path =>
          result <- analyze_video_stream w video_path input_seconds ;;
          Ok (analysis_result result)
      end
  end.

(** ** Notions used to state the properties *)

(** The frames that pass the throttle of line 101, each with its second:
    the loop with everything but [frame_count] and [last_processed_second]
    left out. *)
Fixpoint sampled_from (fps : Q) (count last : Z) (frames : list Frame)
    : list (Z * Frame) :=
  match frames with
  | [] => []
  | frame :: rest =>
      let count := count + 1 in
      let second := py_int (inject_Z count / fps)%Q in
      if second >? last
      then (second, frame) :: sampled_from fps count second rest
      else sampled_from fps count last rest
  end.

Definition sampled_frames (cap : VideoCapture) : list (Z * Frame) :=
  sampled_from (effective_fps cap) 0 (-1) (cap_frames cap).

(** The detections the face detector reports for a frame of the stream. *)
Definition detections_at (w : World) (frame : Frame) : list Detection :=
  face_detections w (map bgr2rgb frame).

(** Whether a record of the timeline satisfies the condition of line 134. *)
Definition record_triggers (r : ObservationRecord) : bool :=
  should_capture (head_position r) (String.eqb (tab_switched r) "true")
                 (multiple_face_detection r).

(** The [save_screenshot] calls that a list of records accounts for. *)
Definition calls_of (video_name : string) (records : list ObservationRecord)
    : list (Z * string) :=
  flat_map (fun r => if record_triggers r
                     then [(time r, screenshot_name video_name (time r))]
                     else []) records.

(** What the loop records for a sampled frame, the scene-change signal
    apart. *)
Definition emitted (w : World) (video_name : string) (sample : Z * Frame)
    (r : ObservationRecord) : Prop :=
  let '(second, frame) := sample in
  time r = second /\
  (head_position r, multiple_face_detection r)
    = classify (detections_at w frame) /\
  (tab_switched r = "true"%string \/ tab_switched r = "false"%string) /\
  screenshot_url r =
    if record_triggers r
    then let azure_url := save_screenshot w frame second video_name in
         if py_truthy azure_url then azure_url else None
    else None.

(** All the frames of a stream have the same, nonzero, number of pixels. *)
Definition uniform_frames (n : nat) (frames : list Frame) : Prop :=
  Forall (fun frame => List.length frame = S n) frames.

(** The mean over all pixels of the absolute luminance difference of two
    frames. *)
Definition mean_abs_luma_diff (prev curr : Frame) : Q :=
  np_mean (map (fun pc : Pixel * Pixel =>
                  Z.abs (bgr2gray (fst pc) - bgr2gray (snd pc)))
               (combine prev curr)).



(** ** Concrete streams *)

Definition dark_frame : Frame := [(0, 0, 0); (0, 0, 0)].
Definition bright_frame : Frame := [(255, 255, 255); (255, 255, 255)].

(** A detector stub: two faces, the last one on the right, on a bright
    frame; one centred face on any other frame. *)
Definition demo_detections (rgb_frame : Frame) : list Detection :=
  match rgb_frame with
  | (r, _, _) :: _ =>
      if r =? 255 then [{| xmin := 1 # 10 |}; {| xmin := 8 # 10 |}]
      else [{| xmin := 1 # 2 |}]
  | [] => []
  end.

(** Six frames at 2 frames per second; the upload succeeds or fails as
    [sink_ok] says. *)
Definition demo_world (sink_ok : bool) : World := {|
  open_video := fun _ =>
    {| CAP_PROP_FPS := 2;
       cap_frames := [dark_frame; dark_frame; dark_frame;
                      bright_frame; bright_frame; dark_frame] |};
  face_detections := demo_detections;
  upload_blob_ok := fun _ => sink_ok;
  account_name := "proctor";
  AZURE_CONTAINER_NAME := "evidence";
  http_status := fun _ => 200;
  temp_file := fun _ => "/tmp/tmpk3v9.mp4"%string
|}.

Definition demo_path : string := "/tmp/tmpk3v9.mp4".

Definition demo_state : loop_state :=
  Eval vm_compute in
    match analyze_video_run (demo_world true) demo_path 3 with
    | Ok st => st
    | Raise _ => initial_state
    end.

(** Ninety identical frames at 30 frames per second, no face on any of
    them, and a sink that always succeeds. *)
Definition synthetic_world : World := {|
  open_video := fun _ =>
    {| CAP_PROP_FPS := 30; cap_frames := repeat dark_frame 90 |};
  face_detections := fun _ => [];
  upload_blob_ok := fun _ => true;
  account_name := "proctor";
  AZURE_CONTAINER_NAME := "evidence";
  http_status := fun _ => 200;
  temp_file := fun _ => "/tmp/synthetic.mp4"%string
|}.

Definition synthetic_path : string := "/tmp/synthetic.mp4".

Definition synthetic_timeline : list ObservationRecord :=
  Eval vm_compute in
    match analyze_video_stream synthetic_world synthetic_path 3 with
    | Ok timeline => timeline
    | Raise _ => []
    end.

(** ** Further notions *)

(** A record with its [screenshot_url] left out. *)
Definition without_url (r : ObservationRecord) : ObservationRecord := {|
  time := time r;
  head_position := head_position r;
  multiple_face_detection := multiple_face_detection r;
  tab_switched := tab_switched r;
  screenshot_url := None
|}.

(** The sampled frames, each paired with the value of [prev_frame] at the
    time it is sampled: [prev] for the first, the sampled frame before it
    for the others. *)
Fixpoint with_previous (prev : option Frame) (samples : list (Z * Frame))
    : list (option Frame * (Z * Frame)) :=
  match samples with
  | [] => []
  | (second, frame) :: rest =>
      (prev, (second, frame)) :: with_previous (Some frame) rest
  end.

(** Whether the character [c] occurs in the string [s]. *)
Fixpoint occurs (c : ascii) (s : string) : bool :=
  match s with
  | EmptyString => false
  | String c' s' => Ascii.eqb c' c || occurs c s'
  end.

(** The URL that [upload_to_azure] builds for a blob name. *)
Definition blob_url (w : World) (blob_name : string) : string :=
  ("https://" ++ account_name w ++ ".blob.core.windows.net/"
   ++ AZURE_CONTAINER_NAME w ++ "/" ++ blob_name)%string.

(** The same function under [Ok], exceptions kept. *)
Definition result_map {A B : Type} (f : A -> B) (m : result A) : result B :=
  match m with
  | Ok a => Ok (f a)
  | Raise e => Raise e
  end.

(** The world in which every stream ends after its first [n] frames. *)
Definition truncated (w : World) (n : nat) : World := {|
  open_video := fun video_path =>
    {| CAP_PROP_FPS := CAP_PROP_FPS (open_video w video_path);
       cap_frames := firstn n (cap_frames (open_video w video_path)) |};
  face_detections := face_detections w;
  upload_blob_ok := upload_blob_ok w;
  account_name := account_name w;
  AZURE_CONTAINER_NAME := AZURE_CONTAINER_NAME w;
  http_status := http_status w;
  temp_file := temp_file w
|}.

(** Two loop states that differ at most in the URLs of their records. *)
Definition same_but_urls (st st' : loop_state) : Prop :=
  frame_count st = frame_count st'
  /\ last_processed_second st = last_processed_second st'
  /\ prev_frame st = prev_frame st'
  /\ map without_url (results_list st) = map without_url (results_list st')
  /\ screenshot_calls st = screenshot_calls st'.


(** A still stream with no declared frame rate: 61 identical frames. *)
Definition still_world : World := {|
  open_video := fun _ =>
    {| CAP_PROP_FPS := 0; cap_frames := repeat bright_frame 61 |};
  face_detections := demo_detections;
  upload_blob_ok := fun _ => true;
  account_name := "proctor";
  AZURE_CONTAINER_NAME := "evidence";
  http_status := fun _ => 200;
  temp_file := fun _ => "/tmp/still.mp4"%string
|}.

(** ** Python primitives *)

Lemma Qltb_true_iff (a b : Q) : Qltb a b = true <-> (a < b)%Q.
Proof.
  unfold Qltb. rewrite negb_true_iff. split.
  - intros H. apply Qnot_le_lt. intros Hle.
    apply Qle_bool_iff in Hle. congruence.
  - intros H. destruct (Qle_bool b a) eqn:E; [|reflexivity].
    apply Qle_bool_iff in E. exfalso. exact (Qlt_not_le _ _ H E).
Qed.

Lemma Qltb_false_iff (a b : Q) : Qltb a b = false <-> (b <= a)%Q.
Proof.
  unfold Qltb. rewrite negb_false_iff. apply Qle_bool_iff.
Qed.

Lemma py_str_bool_lower_true (b : bool) :
  String.eqb (py_str_bool_lower b) "true" = b.
Proof. destruct b; reflexivity. Qed.

Lemma py_str_bool_lower_cases (b : bool) :
  py_str_bool_lower b = "true"%string \/ py_str_bool_lower b = "false"%string.
Proof. destruct b; [left | right]; reflexivity. Qed.

(** ** The trigger condition *)



(** ** The scene-change detector *)

Lemma absdiff_gray (prev curr : Frame) :
  List.length prev = List.length curr ->
  absdiff (map bgr2gray prev) (map bgr2gray curr)
  = Ok (map (fun pc : Pixel * Pixel =>
               Z.abs (bgr2gray (fst pc) - bgr2gray (snd pc)))
            (combine prev curr)).
Proof.
  revert curr. induction prev as [|p prev IH]; intros [|c curr] Hlen;
    try discriminate.
  - reflexivity.
  - cbn [map absdiff combine]. rewrite IH by (simpl in Hlen; lia).
    reflexivity.
Qed.

Lemma detect_tab_switch_present (prev curr : Frame) (threshold : Q) :
  prev <> [] -> List.length prev = List.length curr ->
  detect_tab_switch (Some prev) (Some curr) threshold
  = Ok (Qltb threshold (mean_abs_luma_diff prev curr)).
Proof.
  intros Hne Hlen. unfold detect_tab_switch, cvtColor_BGR2GRAY.
  destruct prev as [|p prev]; [congruence|].
  destruct curr as [|c curr]; [discriminate|].
  cbn [bind]. rewrite absdiff_gray by exact Hlen. reflexivity.
Qed.

Lemma detect_tab_switch_no_prev (curr : option Frame) (threshold : Q) :
  detect_tab_switch None curr threshold = Ok false.
Proof. reflexivity. Qed.


(** ** The classification of a sampled frame *)

Lemma fold_left_last_wins {A B : Type} (g : B -> A) (l : list B) (d : B)
    (a : A) :
  fold_left (fun _ x => g x) (l ++ [d]) a = g d.
Proof. rewrite fold_left_app. reflexivity. Qed.

Lemma classify_nil : classify [] = ("away"%string, "false"%string).
Proof. reflexivity. Qed.

Lemma classify_last (l : list Detection) (d : Detection) :
  classify (l ++ [d])
  = (head_of_detection d,
     if Z.of_nat (List.length (l ++ [d])) >? 1
     then "true"%string else "false"%string).
Proof.
  unfold classify. rewrite fold_left_last_wins.
  destruct (l ++ [d]) eqn:E; [|reflexivity].
  destruct l; discriminate.
Qed.

Lemma head_of_detection_cases (d : Detection) :
  head_of_detection d = "left"%string
  \/ head_of_detection d = "right"%string
  \/ head_of_detection d = "forward"%string.
Proof.
  unfold head_of_detection.
  destruct (Qltb (xmin d) (3 # 10)); [auto|].
  destruct (Qltb (7 # 10) (xmin d)); auto.
Qed.

Lemma classify_cases (l : list Detection) :
  (l = [] /\ classify l = ("away"%string, "false"%string))
  \/ (exists l' d, l = l' ++ [d]
        /\ fst (classify l) = head_of_detection d
        /\ snd (classify l)
           = if Z.of_nat (List.length l) >? 1
             then "true"%string else "false"%string).
Proof.
  destruct l as [|d0 l0]; [left; auto | right].
  destruct (@exists_last _ (d0 :: l0)) as [l' [d E]]; [discriminate|].
  exists l', d. rewrite E, classify_last. auto.
Qed.

(** ** The throttle *)

Lemma sampled_from_increasing (fps : Q) (frames : list Frame) :
  forall count last,
    StronglySorted Z.lt (map fst (sampled_from fps count last frames))
    /\ Forall (fun second => last < second)
              (map fst (sampled_from fps count last frames)).
Proof.
  induction frames as [|frame rest IH]; intros count last; cbn [sampled_from].
  - split; constructor.
  - destruct (Z.gtb_spec (py_int (inject_Z (count + 1) / fps)) last)
      as [Hgt | Hle].
    + destruct (IH (count + 1) (py_int (inject_Z (count + 1) / fps)))
        as [Hs Hb].
      cbn [map fst]. split.
      * constructor; assumption.
      * constructor; [lia|].
        eapply Forall_impl; [|exact Hb]. cbv beta. intros; lia.
    + apply IH.
Qed.

Lemma StronglySorted_lt_NoDup (l : list Z) :
  StronglySorted Z.lt l -> NoDup l.
Proof.
  induction 1 as [|a l Hs IH Hall]; constructor; [|exact IH].
  intros Hin. rewrite Forall_forall in Hall. specialize (Hall _ Hin). lia.
Qed.

(** ** The loop *)

Section Loop.

Variable w : World.
Variable fps : Q.
Variable video_name : string.

Lemma loop_body_skip (st : loop_state) (frame : Frame) :
  (py_int (inject_Z (frame_count st + 1) / fps)
     >? last_processed_second st) = false ->
  loop_body w fps video_name st frame
  = Ok {| frame_count := frame_count st + 1;
          last_processed_second := last_processed_second st;
          prev_frame := prev_frame st;
          results_list := results_list st;
          screenshot_calls := screenshot_calls st |}.
Proof. intros H. unfold loop_body. rewrite H. reflexivity. Qed.

Lemma loop_body_sample (st st' : loop_state) (frame : Frame) :
  (py_int (inject_Z (frame_count st + 1) / fps)
     >? last_processed_second st) = true ->
  loop_body w fps video_name st frame = Ok st' ->
  exists r,
    frame_count st' = frame_count st + 1
    /\ last_processed_second st'
       = py_int (inject_Z (frame_count st + 1) / fps)
    /\ prev_frame st' = Some frame
    /\ results_list st' = results_list st ++ [r]
    /\ screenshot_calls st' = screenshot_calls st ++ calls_of video_name [r]
    /\ emitted w video_name
         (py_int (inject_Z (frame_count st + 1) / fps), frame) r
    /\ (prev_frame st = None -> tab_switched r = "false"%string).
Proof.
  intros Hgt. unfold loop_body. rewrite Hgt.
  destruct (detect_tab_switch (prev_frame st) (Some frame) default_threshold)
    as [tab|e] eqn:Htab; [|discriminate].
  destruct frame as [|p frame]; [discriminate|].
  cbn [bind cvtColor_BGR2RGB].
  destruct (classify (face_detections w (map bgr2rgb (p :: frame))))
    as [hp mfd] eqn:Hc.
  intros H. injection H as <-.
  eexists. cbn [frame_count last_processed_second prev_frame results_list
                screenshot_calls].
  repeat (split; [reflexivity|]).
  unfold calls_of, emitted, record_triggers, detections_at.
  cbn [flat_map time head_position multiple_face_detection tab_switched
       screenshot_url].
  rewrite py_str_bool_lower_true, app_nil_r, Hc.
  split; [reflexivity|]. split.
  - split; [reflexivity|]. split; [reflexivity|].
    split; [apply py_str_bool_lower_cases|].
    destruct (should_capture hp tab mfd); reflexivity.
  - intros Hprev. rewrite Hprev in Htab. cbn in Htab.
    injection Htab as <-. reflexivity.
Qed.

Lemma calls_of_cons (r : ObservationRecord) (l : list ObservationRecord) :
  calls_of video_name (r :: l)
  = calls_of video_name [r] ++ calls_of video_name l.
Proof. unfold calls_of. cbn [flat_map]. rewrite app_nil_r. reflexivity. Qed.

Lemma run_loop_spec (frames : list Frame) :
  forall st st',
    run_loop w fps video_name st frames = Ok st' ->
    exists new,
      results_list st' = results_list st ++ new
      /\ screenshot_calls st' = screenshot_calls st ++ calls_of video_name new
      /\ Forall2 (emitted w video_name)
           (sampled_from fps (frame_count st) (last_processed_second st)
                         frames) new
      /\ (prev_frame st = None ->
          match new with
          | r :: _ => tab_switched r = "false"%string
          | [] => True
          end).
Proof.
  induction frames as [|frame rest IH]; intros st st' Hrun.
  - injection Hrun as <-. exists []. rewrite !app_nil_r.
    repeat split; constructor.
  - cbn [run_loop] in Hrun.
    destruct (loop_body w fps video_name st frame) as [st1|e] eqn:Hbody;
      [|discriminate].
    cbn [bind] in Hrun. cbn [sampled_from].
    destruct (py_int (inject_Z (frame_count st + 1) / fps)
                >? last_processed_second st) eqn:Hgt.
    + destruct (loop_body_sample _ _ _ Hgt Hbody)
        as [r [Hc [Hl [Hp [Hr [Hs [He Ht]]]]]]].
      destruct (IH _ _ Hrun) as [new [Hr' [Hs' [Hf' _]]]].
      exists (r :: new). rewrite Hr', Hr, Hs', Hs, (calls_of_cons r new), <- !app_assoc.
      split; [reflexivity|]. split; [reflexivity|]. split; [|exact Ht].
      constructor; [exact He|]. rewrite Hc, Hl in Hf'. exact Hf'.
    + rewrite loop_body_skip in Hbody by exact Hgt.
      injection Hbody as <-.
      destruct (IH _ _ Hrun) as [new [Hr' [Hs' [Hf' Ht']]]].
      exists new. repeat split; assumption.
Qed.

Lemma loop_body_succeeds (n : nat) (st : loop_state) (frame : Frame) :
  List.length frame = S n ->
  (forall p, prev_frame st = Some p -> List.length p = S n) ->
  exists st',
    loop_body w fps video_name st frame = Ok st'
    /\ (forall p, prev_frame st' = Some p -> List.length p = S n).
Proof.
  intros Hlen Hprev.
  destruct (py_int (inject_Z (frame_count st + 1) / fps)
              >? last_processed_second st) eqn:Hgt.
  - unfold loop_body. rewrite Hgt.
    assert (Htab : exists tab,
      detect_tab_switch (prev_frame st) (Some frame) default_threshold
      = Ok tab).
    { destruct (prev_frame st) as [p|] eqn:Hp.
      - eexists. apply detect_tab_switch_present.
        + specialize (Hprev p eq_refl). destruct p; [discriminate|congruence].
        + rewrite (Hprev p eq_refl). congruence.
      - eexists. reflexivity. }
    destruct Htab as [tab ->].
    destruct frame as [|p frame]; [discriminate|].
    cbn [bind cvtColor_BGR2RGB].
    destruct (classify (face_detections w (map bgr2rgb (p :: frame)))).
    eexists. split; [reflexivity|].
    cbn [prev_frame]. intros q Hq. injection Hq as <-. exact Hlen.
  - rewrite loop_body_skip by exact Hgt. eexists. split; [reflexivity|].
    exact Hprev.
Qed.

Lemma run_loop_succeeds (n : nat) (frames : list Frame) :
  uniform_frames n frames ->
  forall st,
    (forall p, prev_frame st = Some p -> List.length p = S n) ->
    exists st', run_loop w fps video_name st frames = Ok st'.
Proof.
  induction 1 as [|frame rest Hlen _ IH]; intros st Hprev.
  - eexists. reflexivity.
  - destruct (loop_body_succeeds n st frame Hlen Hprev) as [st1 [Hb Hp1]].
    cbn [run_loop]. rewrite Hb. cbn [bind]. apply IH. exact Hp1.
Qed.

End Loop.

Lemma emitted_times (w : World) (video_name : string)
    (samples : list (Z * Frame)) (records : list ObservationRecord) :
  Forall2 (emitted w video_name) samples records ->
  map time records = map fst samples.
Proof.
  induction 1 as [|[second frame] r samples records He _ IH].
  - reflexivity.
  - cbn [map fst]. rewrite IH. destruct He as [-> _]. reflexivity.
Qed.

(** ** The run as a whole *)

Lemma analyze_video_run_spec (w : World) (video_path : string)
    (input_seconds : Z) (st : loop_state) :
  analyze_video_run w video_path input_seconds = Ok st ->
  Forall2 (emitted w (split_dot_0 (basename video_path)))
          (sampled_frames (open_video w video_path)) (results_list st)
  /\ screenshot_calls st
     = calls_of (split_dot_0 (basename video_path)) (results_list st)
  /\ match results_list st with
     | r :: _ => tab_switched r = "false"%string
     | [] => True
     end.
Proof.
  unfold analyze_video_run. intros Hrun.
  destruct (run_loop_spec _ _ _ _ _ _ Hrun) as [new [Hr [Hs [Hf Ht]]]].
  cbn [initial_state results_list screenshot_calls app] in Hr, Hs.
  rewrite Hr, Hs. split; [exact Hf|]. split; [reflexivity|].
  apply Ht. reflexivity.
Qed.

Lemma analyze_video_stream_run (w : World) (video_path : string)
    (input_seconds : Z) (timeline : list ObservationRecord) :
  analyze_video_stream w video_path input_seconds = Ok timeline ->
  exists st, analyze_video_run w video_path input_seconds = Ok st
             /\ results_list st = timeline.
Proof.
  unfold analyze_video_stream.
  destruct (analyze_video_run w video_path input_seconds) as [st|e];
    [|discriminate].
  cbn [bind]. intros H. injection H as <-. exists st. auto.
Qed.

Lemma analyze_video_stream_returns (w : World) (video_path : string)
    (input_seconds : Z) (n : nat) :
  uniform_frames n (cap_frames (open_video w video_path)) ->
  exists timeline,
    analyze_video_stream w video_path input_seconds = Ok timeline.
Proof.
  intros Hwf.
  destruct (run_loop_succeeds w (effective_fps (open_video w video_path))
              (split_dot_0 (basename video_path)) n _ Hwf initial_state)
    as [st Hrun]; [discriminate|].
  exists (results_list st). unfold analyze_video_stream, analyze_video_run.
  rewrite Hrun. reflexivity.
Qed.

Lemma sampled_frames_increasing (cap : VideoCapture) :
  StronglySorted Z.lt (map fst (sampled_frames cap))
  /\ Forall (fun second => 0 <= second) (map fst (sampled_frames cap)).
Proof.
  unfold sampled_frames.
  destruct (sampled_from_increasing (effective_fps cap) (cap_frames cap)
              0 (-1)) as [Hs Hb].
  split; [exact Hs|]. eapply Forall_impl; [|exact Hb].
  cbv beta. intros; lia.
Qed.



Lemma calls_of_times (video_name : string) (l : list ObservationRecord) :
  map fst (calls_of video_name l) = map time (filter record_triggers l).
Proof.
  unfold calls_of. induction l as [|r l IH]; [reflexivity|].
  cbn [flat_map filter]. rewrite map_app, IH.
  destruct (record_triggers r); reflexivity.
Qed.

Lemma classify_multiple_cases (l : list Detection) :
  snd (classify l) = "true"%string \/ snd (classify l) = "false"%string.
Proof.
  destruct (classify_cases l) as [[_ ->] | [l' [d [_ [_ ->]]]]].
  - right; reflexivity.
  - destruct (Z.of_nat (List.length l) >? 1); auto.
Qed.

Lemma emitted_flags (w : World) (video_name : string) (sample : Z * Frame)
    (r : ObservationRecord) :
  emitted w video_name sample r ->
  (tab_switched r = "true"%string \/ tab_switched r = "false"%string)
  /\ (multiple_face_detection r = "true"%string
      \/ multiple_face_detection r = "false"%string).
Proof.
  destruct sample as [second frame]. intros [_ [Hc [Ht _]]].
  split; [exact Ht|].
  pose proof (classify_multiple_cases (detections_at w frame)) as H.
  rewrite <- Hc in H. exact H.
Qed.

Lemma timeline_times (w : World) (video_path : string) (input_seconds : Z)
    (st : loop_state) :
  analyze_video_run w video_path input_seconds = Ok st ->
  map time (results_list st)
  = map fst (sampled_frames (open_video w video_path)).
Proof.
  intros Hrun. destruct (analyze_video_run_spec _ _ _ _ Hrun) as [Hf _].
  eapply emitted_times. exact Hf.
Qed.

(** ** Properties of the pipeline *)



(** C3.  The [time] values of the timeline, in append order, are strictly
    increasing, none is negative, and no two records share one. *)
Theorem timeline_times_strictly_increasing (w : World) (video_path : string)
    (input_seconds : Z) (timeline : list ObservationRecord) :
  analyze_video_stream w video_path input_seconds = Ok timeline ->
  StronglySorted Z.lt (map time timeline)
  /\ Forall (fun r => 0 <= time r) timeline
  /\ NoDup (map time timeline).
Proof.
  intros Hok.
  destruct (analyze_video_stream_run _ _ _ _ Hok) as [st [Hrun <-]].
  rewrite (timeline_times _ _ _ _ Hrun).
  destruct (sampled_frames_increasing (open_video w video_path)) as [Hs Hb].
  split; [exact Hs|]. split; [|apply StronglySorted_lt_NoDup; exact Hs].
  rewrite <- (timeline_times _ _ _ _ Hrun) in Hb.
  rewrite Forall_map in Hb. exact Hb.
Qed.

Lemma timeline_times_strictly_increasing_demo :
  analyze_video_stream (demo_world true) demo_path 3
    = Ok (results_list demo_state)
  /\ (StronglySorted Z.lt (map time (results_list demo_state))
      /\ Forall (fun r => 0 <= time r) (results_list demo_state)
      /\ NoDup (map time (results_list demo_state))).
Proof.
  split.
  - vm_compute. reflexivity.
  - apply (timeline_times_strictly_increasing (demo_world true) demo_path 3).
    vm_compute. reflexivity.
Defined.

(** C5.  The previous frame is absent before the first sampled second, the
    scene-change detector answers false without a previous frame, and so
    the first record of a timeline, if any, has [tab_switched = "false"]. *)
Theorem first_record_has_no_tab_switch (w : World) (video_path : string)
    (input_seconds : Z) (r : ObservationRecord)
    (rest : list ObservationRecord) :
  analyze_video_stream w video_path input_seconds = Ok (r :: rest) ->
  prev_frame initial_state = None
  /\ (forall curr threshold,
        detect_tab_switch None curr threshold = Ok false)
  /\ tab_switched r = "false"%string.
Proof.
  intros Hok. split; [reflexivity|]. split; [reflexivity|].
  destruct (analyze_video_stream_run _ _ _ _ Hok) as [st [Hrun Hres]].
  destruct (analyze_video_run_spec _ _ _ _ Hrun) as [_ [_ Hfirst]].
  rewrite Hres in Hfirst. exact Hfirst.
Qed.

Lemma first_record_has_no_tab_switch_demo :
  analyze_video_stream (demo_world true) demo_path 3
    = Ok (results_list demo_state)
  /\ tab_switched (hd (Build_ObservationRecord 0 "" "" "" None)
                      (results_list demo_state)) = "false"%string.
Proof.
  split.
  - vm_compute. reflexivity.
  - refine (proj2 (proj2 (first_record_has_no_tab_switch
                            (demo_world true) demo_path 3 _ _ _))).
    vm_compute. reflexivity.
Defined.


Lemma head_of_detection_not_away (d : Detection) :
  head_of_detection d <> "away"%string
  /\ head_of_detection d <> "unknown"%string.
Proof.
  destruct (head_of_detection_cases d) as [-> | [-> | ->]];
    split; discriminate.
Qed.








Lemma Forall2_Forall_r {A B : Type} (R : A -> B -> Prop) (P : B -> Prop)
    (la : list A) (lb : list B) :
  (forall a b, R a b -> P b) -> Forall2 R la lb -> Forall P lb.
Proof.
  intros HRP. induction 1; constructor; eauto.
Qed.



(** C10.  The duration hint [input_seconds] has no influence: two calls
    that differ only in it return the same result, at the endpoint, in
    [analyze_video_stream], and down to the loop's final state and the
    screenshots taken. *)
Theorem duration_hint_is_ignored (w : World) (video_url : option string)
    (video_path : string) (input_seconds input_seconds' : Z) :
  analyze_video_endpoint w video_url input_seconds
  = analyze_video_endpoint w video_url input_seconds'
  /\ analyze_video_stream w video_path input_seconds
     = analyze_video_stream w video_path input_seconds'
  /\ analyze_video_run w video_path input_seconds
     = analyze_video_run w video_path input_seconds'.
Proof. repeat split. Qed.




(** C2.  On the synthetic stream of 90 identical frames at 30 frames per
    second, with no detection and a sink that succeeds, the code returns
    four records, for the seconds 0, 1, 2 and 3: [frame_count] is
    incremented before the second is computed, so the first frame counts
    as 1, the 30th frame already opens second 1 and the 90th opens second
    3.  Each record has "away", "false" and a screenshot URL. *)
Theorem synthetic_stream_has_four_records :
  analyze_video_stream synthetic_world synthetic_path 3
    = Ok synthetic_timeline
  /\ List.length synthetic_timeline = 4%nat
  /\ map time synthetic_timeline = [0; 1; 2; 3]
  /\ Forall (fun r => head_position r = "away"%string
                      /\ tab_switched r = "false"%string
                      /\ record_triggers r = true
                      /\ screenshot_url r <> None) synthetic_timeline
  /\ map fst (sampled_from 30 0 (-1) (repeat dark_frame 30)) = [0; 1].
Proof.
  split; [vm_compute; reflexivity|].
  split; [reflexivity|]. split; [reflexivity|].
  split; [|vm_compute; reflexivity].
  unfold synthetic_timeline.
  repeat (constructor;
          [repeat split; try reflexivity; discriminate|]).
  constructor.
Qed.

(** ** Further properties of the scene-change detector *)

Lemma absdiff_sym (a b : list Z) : absdiff a b = absdiff b a.
Proof.
  revert b. induction a as [|x a IH]; intros [|y b]; try reflexivity.
  cbn [absdiff]. rewrite IH.
  replace (Z.abs (x - y)) with (Z.abs (y - x)) by lia. reflexivity.
Qed.


Lemma sumZ_abs_self (f : Frame) :
  sumZ (map (fun pc : Pixel * Pixel =>
               Z.abs (bgr2gray (fst pc) - bgr2gray (snd pc)))
            (combine f f)) = 0.
Proof.
  unfold sumZ. induction f as [|p f IH]; [reflexivity|].
  cbn [combine map fold_right fst snd]. rewrite IH. lia.
Qed.

(** X1.  The detector is symmetric: exchanging the previous and the
    current frame changes neither the answer nor the exception. *)
Theorem detect_tab_switch_symmetric (prev curr : option Frame)
    (threshold : Q) :
  detect_tab_switch prev curr threshold
  = detect_tab_switch curr prev threshold.
Proof.
  destruct prev as [p|], curr as [c|]; try reflexivity.
  unfold detect_tab_switch, cvtColor_BGR2GRAY.
  destruct p as [|p0 p], c as [|c0 c]; try reflexivity.
  cbn [bind]. rewrite absdiff_sym. reflexivity.
Qed.

Lemma detect_tab_switch_same_frame (frame : Frame) (threshold : Q) :
  frame <> [] -> (0 <= threshold)%Q ->
  detect_tab_switch (Some frame) (Some frame) threshold = Ok false.
Proof.
  intros Hne Hth. rewrite detect_tab_switch_present by auto.
  f_equal. apply Qltb_false_iff.
  unfold mean_abs_luma_diff, np_mean. rewrite sumZ_abs_self.
  unfold Qdiv. rewrite Qmult_0_l. exact Hth.
Qed.

(** X2.  Two identical nonempty frames are never reported as a tab
    switch, whatever the non-negative threshold. *)
Theorem identical_frames_no_tab_switch (frame : Frame) (threshold : Q) :
  frame <> [] -> (0 <= threshold)%Q ->
  detect_tab_switch (Some frame) (Some frame) threshold = Ok false.
Proof. exact (detect_tab_switch_same_frame frame threshold). Qed.

Lemma identical_frames_no_tab_switch_demo :
  bright_frame <> [] /\ (0 <= default_threshold)%Q
  /\ detect_tab_switch (Some bright_frame) (Some bright_frame)
                       default_threshold = Ok false.
Proof.
  assert (Hne : bright_frame <> []) by discriminate.
  assert (Hth : (0 <= default_threshold)%Q) by (vm_compute; discriminate).
  split; [exact Hne|]. split; [exact Hth|].
  exact (identical_frames_no_tab_switch bright_frame default_threshold
           Hne Hth).
Defined.


(** ** Further properties of the throttle *)

Lemma py_int_monotone (x y : Q) : (x <= y)%Q -> py_int x <= py_int y.
Proof.
  intros Hxy. unfold py_int.
  destruct (Qle_bool 0 x) eqn:Hx, (Qle_bool 0 y) eqn:Hy.
  - apply Qfloor_resp_le. exact Hxy.
  - apply Qle_bool_iff in Hx.
    assert (H : (0 <= y)%Q) by (eapply Qle_trans; eassumption).
    apply Qle_bool_iff in H. congruence.
  - apply Qle_bool_iff in Hy.
    assert (Hx' : (x <= 0)%Q).
    { apply Qlt_le_weak, Qnot_le_lt. intros H.
      apply Qle_bool_iff in H. congruence. }
    apply Z.le_trans with 0.
    + change 0 with (Qceiling 0). apply Qceiling_resp_le. exact Hx'.
    + change 0 with (Qfloor 0). apply Qfloor_resp_le. exact Hy.
  - apply Qceiling_resp_le. exact Hxy.
Qed.

Lemma py_int_nonneg (x : Q) : (0 <= x)%Q -> 0 <= py_int x.
Proof.
  intros H. change 0 with (py_int 0). apply py_int_monotone. exact H.
Qed.

Lemma effective_fps_positive (cap : VideoCapture) :
  (0 < effective_fps cap)%Q.
Proof.
  unfold effective_fps. destruct (Qle_bool (CAP_PROP_FPS cap) 0) eqn:H.
  - reflexivity.
  - apply Qnot_le_lt. intros Hle. apply Qle_bool_iff in Hle. congruence.
Qed.

Lemma second_monotone (fps : Q) (a b : Z) :
  (0 < fps)%Q -> a <= b ->
  py_int (inject_Z a / fps) <= py_int (inject_Z b / fps).
Proof.
  intros Hfps Hab. apply py_int_monotone. unfold Qdiv.
  apply Qmult_le_compat_r.
  - rewrite <- Zle_Qle. exact Hab.
  - apply Qlt_le_weak, Qinv_lt_0_compat. exact Hfps.
Qed.

Lemma second_nonneg (fps : Q) (k : Z) :
  (0 < fps)%Q -> 0 <= k -> 0 <= py_int (inject_Z k / fps).
Proof.
  intros Hfps Hk. apply py_int_nonneg. unfold Qdiv.
  apply Qmult_le_0_compat.
  - change 0%Q with (inject_Z 0). rewrite <- Zle_Qle. exact Hk.
  - apply Qlt_le_weak, Qinv_lt_0_compat. exact Hfps.
Qed.

Lemma sampled_from_sound (fps : Q) (frames : list Frame) :
  forall count last second,
    In second (map fst (sampled_from fps count last frames)) ->
    exists k, count < k <= count + Z.of_nat (List.length frames)
              /\ second = py_int (inject_Z k / fps).
Proof.
  induction frames as [|frame rest IH]; intros count last second Hin;
    [contradiction|].
  cbn [sampled_from] in Hin. cbn [List.length]. rewrite Nat2Z.inj_succ.
  destruct (py_int (inject_Z (count + 1) / fps) >? last).
  - cbn [map fst In] in Hin. destruct Hin as [<- | Hin].
    + exists (count + 1). split; [lia | reflexivity].
    + destruct (IH _ _ _ Hin) as [k [Hk ->]]. exists k.
      split; [lia | reflexivity].
  - destruct (IH _ _ _ Hin) as [k [Hk ->]]. exists k.
    split; [lia | reflexivity].
Qed.

Lemma sampled_from_complete (fps : Q) (frames : list Frame) :
  (0 < fps)%Q ->
  forall count last k,
    count < k <= count + Z.of_nat (List.length frames) ->
    last < py_int (inject_Z k / fps) ->
    In (py_int (inject_Z k / fps))
       (map fst (sampled_from fps count last frames)).
Proof.
  intros Hfps.
  induction frames as [|frame rest IH]; intros count last k Hk Hlast.
  - cbn [List.length] in Hk. lia.
  - cbn [List.length] in Hk. rewrite Nat2Z.inj_succ in Hk.
    cbn [sampled_from].
    pose proof (second_monotone fps (count + 1) k Hfps ltac:(lia)) as Hmono.
    destruct (Z.gtb_spec (py_int (inject_Z (count + 1) / fps)) last)
      as [Hgt | Hle].
    + cbn [map fst In].
      destruct (Z.eq_dec (py_int (inject_Z (count + 1) / fps))
                         (py_int (inject_Z k / fps))) as [Heq | Hne];
        [left; exact Heq | right].
      apply IH; [|lia].
      assert (k <> count + 1) by (intros ->; apply Hne; reflexivity).
      lia.
    + apply IH; [|exact Hlast].
      assert (k <> count + 1) by (intros ->; lia).
      lia.
Qed.

Lemma sampled_from_length (fps : Q) (frames : list Frame) :
  forall count last,
    (List.length (sampled_from fps count last frames)
     <= List.length frames)%nat.
Proof.
  induction frames as [|frame rest IH]; intros count last; [reflexivity|].
  cbn [sampled_from List.length].
  destruct (py_int (inject_Z (count + 1) / fps) >? last).
  - cbn [List.length]. specialize (IH (count + 1)
      (py_int (inject_Z (count + 1) / fps))). lia.
  - specialize (IH (count + 1) last). lia.
Qed.



(** X5.  The timeline is empty exactly when the stream has no frame, and
    it never has more records than the stream has frames. *)
Theorem timeline_empty_iff_no_frame (w : World) (video_path : string)
    (input_seconds : Z) (timeline : list ObservationRecord) :
  analyze_video_stream w video_path input_seconds = Ok timeline ->
  (timeline = [] <-> cap_frames (open_video w video_path) = [])
  /\ (List.length timeline
      <= List.length (cap_frames (open_video w video_path)))%nat.
Proof.
  intros Hok.
  destruct (analyze_video_stream_run _ _ _ _ Hok) as [st [Hrun <-]].
  pose proof (timeline_times _ _ _ _ Hrun) as Ht.
  assert (Hlen : List.length (results_list st)
                 = List.length (sampled_frames (open_video w video_path))).
  { rewrite <- (length_map time), Ht, length_map. reflexivity. }
  split.
  - split.
    + intros Hnil.
      destruct (cap_frames (open_video w video_path)) as [|f fs] eqn:Hf;
        [reflexivity | exfalso].
      pose proof (effective_fps_positive (open_video w video_path)) as Hfps.
      assert (Hin : In (py_int (inject_Z 1
                          / effective_fps (open_video w video_path)))
                       (map fst (sampled_frames (open_video w video_path)))).
      { unfold sampled_frames. apply sampled_from_complete.
        - exact Hfps.
        - rewrite Hf. cbn [List.length]. lia.
        - pose proof (second_nonneg _ 1 Hfps ltac:(lia)). lia. }
      rewrite <- Ht, Hnil in Hin. exact Hin.
    + intros Hf. apply length_zero_iff_nil. rewrite Hlen.
      unfold sampled_frames. rewrite Hf. reflexivity.
  - rewrite Hlen. apply sampled_from_length.
Qed.

Lemma timeline_empty_iff_no_frame_demo :
  analyze_video_stream (demo_world true) demo_path 3
    = Ok (results_list demo_state)
  /\ ((results_list demo_state = []
       <-> cap_frames (open_video (demo_world true) demo_path) = [])
      /\ (List.length (results_list demo_state)
          <= List.length
               (cap_frames (open_video (demo_world true) demo_path)))%nat).
Proof.
  split.
  - vm_compute. reflexivity.
  - apply (timeline_empty_iff_no_frame (demo_world true) demo_path 3).
    vm_compute. reflexivity.
Defined.

(** ** Further properties of the records and of the uploads *)

Lemma emitted_url (w : World) (video_name : string) (sample : Z * Frame)
    (r : ObservationRecord) :
  emitted w video_name sample r ->
  screenshot_url r
  = if record_triggers r
       && upload_blob_ok w (screenshot_name video_name (time r))
    then Some (blob_url w (screenshot_name video_name (time r)))
    else None.
Proof.
  destruct sample as [second frame]. intros [Ht [_ [_ ->]]]. rewrite Ht.
  unfold save_screenshot, upload_to_azure, blob_url.
  destruct (record_triggers r); [|reflexivity].
  destruct (upload_blob_ok w (screenshot_name video_name second));
    reflexivity.
Qed.

(** X6.  A record carries a screenshot URL exactly when it satisfies the
    trigger condition and the upload of its blob succeeded; the URL is
    then https://<account>.blob.core.windows.net/<container>/<blob>, the
    blob being named <video name>_screenshot_<second>.jpg. *)
Theorem screenshot_url_characterised (w : World) (video_path : string)
    (input_seconds : Z) (timeline : list ObservationRecord) :
  analyze_video_stream w video_path input_seconds = Ok timeline ->
  Forall (fun r =>
            let blob_name :=
              (split_dot_0 (basename video_path) ++ "_screenshot_"
               ++ py_str_int (time r) ++ ".jpg")%string in
            screenshot_url r
            = if record_triggers r && upload_blob_ok w blob_name
              then Some ("https://" ++ account_name w
                         ++ ".blob.core.windows.net/"
                         ++ AZURE_CONTAINER_NAME w ++ "/" ++ blob_name)%string
              else None) timeline.
Proof.
  intros Hok.
  destruct (analyze_video_stream_run _ _ _ _ Hok) as [st [Hrun <-]].
  destruct (analyze_video_run_spec _ _ _ _ Hrun) as [Hf _].
  eapply Forall2_Forall_r; [|exact Hf].
  intros sample r He. cbv zeta. exact (emitted_url _ _ _ _ He).
Qed.

Lemma screenshot_url_characterised_demo :
  analyze_video_stream (demo_world true) demo_path 3
    = Ok (results_list demo_state)
  /\ Forall (fun r =>
               let blob_name :=
                 (split_dot_0 (basename demo_path) ++ "_screenshot_"
                  ++ py_str_int (time r) ++ ".jpg")%string in
               screenshot_url r
               = if record_triggers r
                    && upload_blob_ok (demo_world true) blob_name
                 then Some ("https://" ++ account_name (demo_world true)
                            ++ ".blob.core.windows.net/"
                            ++ AZURE_CONTAINER_NAME (demo_world true)
                            ++ "/" ++ blob_name)%string
                 else None) (results_list demo_state).
Proof.
  split.
  - vm_compute. reflexivity.
  - apply (screenshot_url_characterised (demo_world true) demo_path 3).
    vm_compute. reflexivity.
Defined.

Lemma emitted_domains (w : World) (video_name : string) (sample : Z * Frame)
    (r : ObservationRecord) :
  emitted w video_name sample r ->
  (head_position r = "away"%string ->
   multiple_face_detection r = "false"%string)
  /\ (multiple_face_detection r = "true"%string ->
      head_position r = "left"%string \/ head_position r = "right"%string
      \/ head_position r = "forward"%string).
Proof.
  destruct sample as [second frame]. intros [_ [Hc _]].
  assert (Hh : head_position r = fst (classify (detections_at w frame)))
    by (rewrite <- Hc; reflexivity).
  assert (Hm : multiple_face_detection r
               = snd (classify (detections_at w frame)))
    by (rewrite <- Hc; reflexivity).
  destruct (classify_cases (detections_at w frame))
    as [[_ Hcl] | [l' [d [_ [Hd _]]]]].
  - rewrite Hcl in Hh, Hm. cbn [fst snd] in Hh, Hm. rewrite Hh, Hm.
    split; [reflexivity | discriminate].
  - rewrite Hd in Hh. rewrite Hh. split.
    + intros H. destruct (head_of_detection_not_away d) as [Hna _].
      contradiction.
    + intros _. apply head_of_detection_cases.
Qed.

(** X7.  In every record the two flags are the strings "true" or "false";
    a record whose head position is "away" never reports multiple faces,
    and one that reports multiple faces has a head position read off a
    detection ("left", "right" or "forward"). *)
Theorem record_fields_consistent (w : World) (video_path : string)
    (input_seconds : Z) (timeline : list ObservationRecord) :
  analyze_video_stream w video_path input_seconds = Ok timeline ->
  Forall (fun r =>
            (tab_switched r = "true"%string
             \/ tab_switched r = "false"%string)
            /\ (multiple_face_detection r = "true"%string
                \/ multiple_face_detection r = "false"%string)
            /\ (head_position r = "away"%string ->
                multiple_face_detection r = "false"%string)
            /\ (multiple_face_detection r = "true"%string ->
                head_position r = "left"%string
                \/ head_position r = "right"%string
                \/ head_position r = "forward"%string)) timeline.
Proof.
  intros Hok.
  destruct (analyze_video_stream_run _ _ _ _ Hok) as [st [Hrun <-]].
  destruct (analyze_video_run_spec _ _ _ _ Hrun) as [Hf _].
  eapply Forall2_Forall_r; [|exact Hf].
  intros sample r He.
  destruct (emitted_flags _ _ _ _ He) as [Ht Hm].
  destruct (emitted_domains _ _ _ _ He) as [Ha Hmf].
  auto.
Qed.

Lemma record_fields_consistent_demo :
  analyze_video_stream (demo_world true) demo_path 3
    = Ok (results_list demo_state)
  /\ Forall (fun r =>
               (tab_switched r = "true"%string
                \/ tab_switched r = "false"%string)
               /\ (multiple_face_detection r = "true"%string
                   \/ multiple_face_detection r = "false"%string)
               /\ (head_position r = "away"%string ->
                   multiple_face_detection r = "false"%string)
               /\ (multiple_face_detection r = "true"%string ->
                   head_position r = "left"%string
                   \/ head_position r = "right"%string
                   \/ head_position r = "forward"%string))
            (results_list demo_state).
Proof.
  split.
  - vm_compute. reflexivity.
  - apply (record_fields_consistent (demo_world true) demo_path 3).
    vm_compute. reflexivity.
Defined.

Lemma string_length_append (s1 s2 : string) :
  String.length (s1 ++ s2) = (String.length s1 + String.length s2)%nat.
Proof.
  induction s1 as [|c s1 IH]; [reflexivity|].
  cbn [String.append String.length]. rewrite IH. reflexivity.
Qed.

Lemma append_cancel_l (p a b : string) :
  (p ++ a)%string = (p ++ b)%string -> a = b.
Proof.
  induction p as [|c p IH]; intros H; [exact H|].
  cbn [String.append] in H. injection H as H. exact (IH H).
Qed.

Lemma append_cancel_r (s a b : string) :
  (a ++ s)%string = (b ++ s)%string -> a = b.
Proof.
  revert b. induction a as [|c a IH]; intros [|c' b] H.
  - reflexivity.
  - apply (f_equal String.length) in H.
    cbn [String.append String.length] in H.
    rewrite string_length_append in H. lia.
  - apply (f_equal String.length) in H.
    cbn [String.append String.length] in H.
    rewrite string_length_append in H. lia.
  - cbn [String.append] in H. injection H as -> H.
    rewrite (IH _ H). reflexivity.
Qed.

Lemma py_str_int_injective (a b : Z) : py_str_int a = py_str_int b -> a = b.
Proof.
  unfold py_str_int. intros H.
  assert (Hnn : forall z, Z.to_int z <> Decimal.Pos Decimal.Nil
                          /\ Z.to_int z <> Decimal.Neg Decimal.Nil).
  { intros [|p|p]; split; cbn; try discriminate;
      intros [= E]; exact (Unsigned.to_uint_nonnil _ E). }
  apply DecimalZ.to_int_inj.
  assert (E : Some (Z.to_int a) = Some (Z.to_int b)).
  { rewrite <- (NilZero.isi (Z.to_int a)) by apply Hnn.
    rewrite <- (NilZero.isi (Z.to_int b)) by apply Hnn.
    rewrite H. reflexivity. }
  injection E as E. exact E.
Qed.

Lemma screenshot_name_injective (video_name : string) (a b : Z) :
  screenshot_name video_name a = screenshot_name video_name b -> a = b.
Proof.
  unfold screenshot_name. intros H.
  apply append_cancel_l, append_cancel_l, append_cancel_r in H.
  apply py_str_int_injective. exact H.
Qed.

Lemma StronglySorted_map_filter {A : Type} (f : A -> Z) (p : A -> bool)
    (l : list A) :
  StronglySorted Z.lt (map f l) -> StronglySorted Z.lt (map f (filter p l)).
Proof.
  induction l as [|a l IH]; intros Hs; [constructor|].
  cbn [map] in Hs. apply StronglySorted_inv in Hs. destruct Hs as [Hs Hall].
  cbn [filter]. destruct (p a); [|exact (IH Hs)].
  cbn [map]. constructor; [exact (IH Hs)|].
  rewrite Forall_forall in *. intros x Hx. apply Hall.
  apply in_map_iff in Hx. destruct Hx as [y [<- Hy]].
  apply filter_In in Hy. apply in_map. tauto.
Qed.

Lemma NoDup_map_injective {A B : Type} (f : A -> B) (l : list A) :
  (forall a b, f a = f b -> a = b) -> NoDup l -> NoDup (map f l).
Proof.
  intros Hinj. induction 1 as [|a l Hnotin _ IH]; cbn [map]; constructor;
    [|exact IH].
  intros Hin. apply in_map_iff in Hin. destruct Hin as [b [Hb Hin]].
  apply Hinj in Hb. subst b. contradiction.
Qed.

Lemma calls_of_names (video_name : string) (l : list ObservationRecord) :
  calls_of video_name l
  = map (fun second => (second, screenshot_name video_name second))
        (map fst (calls_of video_name l)).
Proof.
  unfold calls_of. induction l as [|r l IH]; [reflexivity|].
  cbn [flat_map]. rewrite !map_app, <- IH.
  destruct (record_triggers r); reflexivity.
Qed.

(** X8.  The screenshots of a run are taken in strictly increasing order
    of their second, so at most one per second; each is uploaded under
    the blob name built from that second, and no two under the same
    name; there are no more of them than records. *)
Theorem screenshots_once_per_second (w : World) (video_path : string)
    (input_seconds : Z) (st : loop_state) :
  analyze_video_run w video_path input_seconds = Ok st ->
  StronglySorted Z.lt (map fst (screenshot_calls st))
  /\ Forall (fun call =>
               snd call
               = (split_dot_0 (basename video_path) ++ "_screenshot_"
                  ++ py_str_int (fst call) ++ ".jpg")%string)
            (screenshot_calls st)
  /\ NoDup (map snd (screenshot_calls st))
  /\ (List.length (screenshot_calls st)
      <= List.length (results_list st))%nat.
Proof.
  intros Hrun.
  destruct (analyze_video_run_spec _ _ _ _ Hrun) as [_ [Hs _]].
  assert (Hsorted : StronglySorted Z.lt (map fst (screenshot_calls st))).
  { rewrite Hs, calls_of_times. apply StronglySorted_map_filter.
    rewrite (timeline_times _ _ _ _ Hrun). apply sampled_frames_increasing. }
  split; [exact Hsorted|].
  rewrite Hs in Hsorted |- *.
  set (name := split_dot_0 (basename video_path)) in *.
  split; [|split].
  - rewrite (calls_of_names name (results_list st)).
    apply Forall_map, Forall_forall. intros second _. reflexivity.
  - rewrite (calls_of_names name (results_list st)), map_map. cbn [snd].
    apply NoDup_map_injective; [apply screenshot_name_injective|].
    apply StronglySorted_lt_NoDup. exact Hsorted.
  - rewrite <- (length_map fst), calls_of_times, length_map.
    apply filter_length_le.
Qed.

Lemma screenshots_once_per_second_demo :
  analyze_video_run (demo_world true) demo_path 3 = Ok demo_state
  /\ (StronglySorted Z.lt (map fst (screenshot_calls demo_state))
      /\ Forall (fun call =>
                   snd call
                   = (split_dot_0 (basename demo_path) ++ "_screenshot_"
                      ++ py_str_int (fst call) ++ ".jpg")%string)
                (screenshot_calls demo_state)
      /\ NoDup (map snd (screenshot_calls demo_state))
      /\ (List.length (screenshot_calls demo_state)
          <= List.length (results_list demo_state))%nat).
Proof.
  split.
  - vm_compute. reflexivity.
  - apply (screenshots_once_per_second (demo_world true) demo_path 3).
    vm_compute. reflexivity.
Defined.

(** ** Further properties of the loop *)

Section LoopMore.

Variable w : World.
Variable fps : Q.
Variable video_name : string.

Lemma loop_body_sample_tab (st st' : loop_state) (frame : Frame) :
  (py_int (inject_Z (frame_count st + 1) / fps)
     >? last_processed_second st) = true ->
  loop_body w fps video_name st frame = Ok st' ->
  exists r changed,
    results_list st' = results_list st ++ [r]
    /\ time r = py_int (inject_Z (frame_count st + 1) / fps)
    /\ detect_tab_switch (prev_frame st) (Some frame) default_threshold
       = Ok changed
    /\ tab_switched r = py_str_bool_lower changed.
Proof.
  intros Hgt. unfold loop_body. rewrite Hgt.
  destruct (detect_tab_switch (prev_frame st) (Some frame) default_threshold)
    as [tab|e]; [|discriminate].
  destruct frame as [|p frame]; [discriminate|].
  cbn [bind cvtColor_BGR2RGB].
  destruct (classify (face_detections w (map bgr2rgb (p :: frame))))
    as [hp mfd].
  intros H. injection H as <-. eexists. exists tab.
  cbn [results_list]. repeat split.
Qed.

Lemma run_loop_tab (frames : list Frame) :
  forall st st',
    run_loop w fps video_name st frames = Ok st' ->
    exists new,
      results_list st' = results_list st ++ new
      /\ Forall2 (fun (sample : option Frame * (Z * Frame)) r =>
                    time r = fst (snd sample)
                    /\ exists changed,
                         detect_tab_switch (fst sample)
                           (Some (snd (snd sample))) default_threshold
                         = Ok changed
                         /\ tab_switched r = py_str_bool_lower changed)
           (with_previous (prev_frame st)
              (sampled_from fps (frame_count st) (last_processed_second st)
                            frames))
           new.
Proof.
  induction frames as [|frame rest IH]; intros st st' Hrun.
  - injection Hrun as <-. exists []. rewrite app_nil_r.
    split; [reflexivity | constructor].
  - cbn [run_loop] in Hrun.
    destruct (loop_body w fps video_name st frame) as [st1|e] eqn:Hbody;
      [|discriminate].
    cbn [bind] in Hrun. cbn [sampled_from].
    destruct (py_int (inject_Z (frame_count st + 1) / fps)
                >? last_processed_second st) eqn:Hgt.
    + destruct (loop_body_sample_tab _ _ _ Hgt Hbody)
        as [r [changed [Hr [Ht [Hd Htab]]]]].
      destruct (loop_body_sample w fps video_name _ _ _ Hgt Hbody)
        as [r' [Hc [Hl [Hp _]]]].
      destruct (IH _ _ Hrun) as [new [Hr' Hf]].
      exists (r :: new). rewrite Hr', Hr, <- app_assoc.
      split; [reflexivity|]. cbn [with_previous].
      constructor.
      * cbn [fst snd]. split; [exact Ht|]. exists changed. auto.
      * rewrite Hc, Hl, Hp in Hf. exact Hf.
    + rewrite loop_body_skip in Hbody by exact Hgt.
      injection Hbody as <-. exact (IH _ _ Hrun).
Qed.

Lemma run_loop_app (a b : list Frame) :
  forall st,
    run_loop w fps video_name st (a ++ b)
    = (st1 <- run_loop w fps video_name st a ;;
       run_loop w fps video_name st1 b).
Proof.
  induction a as [|frame a IH]; intros st; [reflexivity|].
  cbn [app run_loop].
  destruct (loop_body w fps video_name st frame) as [st1|e];
    [|reflexivity].
  cbn [bind]. apply IH.
Qed.

Lemma run_loop_truncated (n : nat) (frames : list Frame) :
  forall st,
    run_loop (truncated w n) fps video_name st frames
    = run_loop w fps video_name st frames.
Proof.
  induction frames as [|frame rest IH]; intros st; [reflexivity|].
  cbn [run_loop].
  change (loop_body (truncated w n) fps video_name st frame)
    with (loop_body w fps video_name st frame).
  destruct (loop_body w fps video_name st frame); [|reflexivity].
  cbn [bind]. apply IH.
Qed.

End LoopMore.



(** X10.  Cutting a stream after its first [n] frames cuts the timeline:
    the timeline of the shortened stream is a prefix of the timeline of
    the whole stream, so a record, once appended, is never changed by the
    frames that follow. *)
Theorem truncated_stream_gives_prefix (w : World) (video_path : string)
    (input_seconds : Z) (n : nat) (timeline : list ObservationRecord) :
  analyze_video_stream w video_path input_seconds = Ok timeline ->
  exists shorter rest,
    analyze_video_stream (truncated w n) video_path input_seconds
    = Ok shorter
    /\ timeline = shorter ++ rest.
Proof.
  intros Hok.
  destruct (analyze_video_stream_run _ _ _ _ Hok) as [st [Hrun <-]].
  unfold analyze_video_stream, analyze_video_run in *.
  cbn [truncated open_video cap_frames].
  change (effective_fps _) with (effective_fps (open_video w video_path)).
  rewrite run_loop_truncated.
  rewrite <- (firstn_skipn n (cap_frames (open_video w video_path))) in Hrun.
  rewrite run_loop_app in Hrun.
  destruct (run_loop w (effective_fps (open_video w video_path))
              (split_dot_0 (basename video_path)) initial_state
              (firstn n (cap_frames (open_video w video_path))))
    as [st1|e]; [|discriminate].
  cbn [bind] in Hrun |- *.
  destruct (run_loop_spec _ _ _ _ _ _ Hrun) as [new [Hr _]].
  exists (results_list st1), new. auto.
Qed.

Lemma truncated_stream_gives_prefix_demo :
  analyze_video_stream (demo_world true) demo_path 3
    = Ok (results_list demo_state)
  /\ exists shorter rest,
       analyze_video_stream (truncated (demo_world true) 3) demo_path 3
       = Ok shorter
       /\ results_list demo_state = shorter ++ rest.
Proof.
  split.
  - vm_compute. reflexivity.
  - apply (truncated_stream_gives_prefix (demo_world true) demo_path 3 3).
    vm_compute. reflexivity.
Defined.

(** ** The sink and the timeline *)

Section TwoSinks.

Variables w w' : World.
Variable fps : Q.
Variable video_name : string.
Hypothesis same_detector :
  forall rgb_frame, face_detections w rgb_frame = face_detections w' rgb_frame.

Lemma loop_body_same_but_urls (st st' : loop_state) (frame : Frame) :
  same_but_urls st st' ->
  match loop_body w fps video_name st frame,
        loop_body w' fps video_name st' frame with
  | Ok a, Ok b => same_but_urls a b
  | Raise e, Raise e' => e = e'
  | _, _ => False
  end.
Proof.
  intros [Hc [Hl [Hp [Hr Hs]]]]. unfold loop_body.
  rewrite <- Hc, <- Hl, <- Hp.
  destruct (py_int (inject_Z (frame_count st + 1) / fps)
              >? last_processed_second st).
  - destruct (detect_tab_switch (prev_frame st) (Some frame)
                default_threshold) as [tab|e]; [|reflexivity].
    destruct frame as [|p frame]; [reflexivity|].
    cbn [bind cvtColor_BGR2RGB]. rewrite <- same_detector.
    destruct (classify (face_detections w (map bgr2rgb (p :: frame))))
      as [hp mfd].
    unfold same_but_urls.
    cbn [frame_count last_processed_second prev_frame results_list
         screenshot_calls].
    rewrite !map_app, Hr, Hs. repeat split.
  - unfold same_but_urls.
    cbn [frame_count last_processed_second prev_frame results_list
         screenshot_calls].
    auto.
Qed.

Lemma run_loop_same_but_urls (frames : list Frame) :
  forall st st',
    same_but_urls st st' ->
    match run_loop w fps video_name st frames,
          run_loop w' fps video_name st' frames with
    | Ok a, Ok b => same_but_urls a b
    | Raise e, Raise e' => e = e'
    | _, _ => False
    end.
Proof.
  induction frames as [|frame rest IH]; intros st st' Hsim; [exact Hsim|].
  cbn [run_loop].
  pose proof (loop_body_same_but_urls st st' frame Hsim) as Hb.
  destruct (loop_body w fps video_name st frame) as [a|e],
           (loop_body w' fps video_name st' frame) as [b|e'];
    try contradiction.
  - cbn [bind]. apply IH. exact Hb.
  - cbn [bind]. exact Hb.
Qed.

End TwoSinks.

(** X11.  The blob store influences nothing but the URLs: two runs on the
    same stream with the same detector, whatever their sinks, raise
    together or return timelines that are equal once the URLs are left
    out, and they attempt the same screenshots. *)
Theorem sink_only_changes_urls (w w' : World) (video_path : string)
    (input_seconds : Z) :
  open_video w video_path = open_video w' video_path ->
  (forall rgb_frame,
      face_detections w rgb_frame = face_detections w' rgb_frame) ->
  result_map (map without_url)
             (analyze_video_stream w video_path input_seconds)
  = result_map (map without_url)
               (analyze_video_stream w' video_path input_seconds)
  /\ result_map screenshot_calls
                (analyze_video_run w video_path input_seconds)
     = result_map screenshot_calls
                  (analyze_video_run w' video_path input_seconds).
Proof.
  intros Hcap Hdet. unfold analyze_video_stream, analyze_video_run.
  rewrite <- Hcap.
  assert (Hinit : same_but_urls initial_state initial_state)
    by (repeat split).
  pose proof (run_loop_same_but_urls w w'
                (effective_fps (open_video w video_path))
                (split_dot_0 (basename video_path)) Hdet
                (cap_frames (open_video w video_path)) _ _ Hinit) as H.
  destruct (run_loop w _ _ initial_state _) as [a|e],
           (run_loop w' _ _ initial_state _) as [b|e'];
    try contradiction; cbn [bind result_map].
  - destruct H as [_ [_ [_ [Hr Hs]]]]. rewrite Hr, Hs. auto.
  - rewrite H. auto.
Qed.

Lemma sink_only_changes_urls_demo :
  open_video (demo_world true) demo_path
    = open_video (demo_world false) demo_path
  /\ (forall rgb_frame,
         face_detections (demo_world true) rgb_frame
         = face_detections (demo_world false) rgb_frame)
  /\ result_map (map without_url)
                (analyze_video_stream (demo_world true) demo_path 3)
     = result_map (map without_url)
                  (analyze_video_stream (demo_world false) demo_path 3).
Proof.
  assert (Hcap : open_video (demo_world true) demo_path
                 = open_video (demo_world false) demo_path) by reflexivity.
  assert (Hdet : forall rgb_frame,
             face_detections (demo_world true) rgb_frame
             = face_detections (demo_world false) rgb_frame)
    by reflexivity.
  split; [exact Hcap|]. split; [exact Hdet|].
  exact (proj1 (sink_only_changes_urls (demo_world true) (demo_world false)
                  demo_path 3 Hcap Hdet)).
Defined.

(** ** The endpoint *)

(** X12.  The endpoint returns a timeline exactly when the URL is present
    and not empty, the download answers 200 and the analysis of the
    downloaded file returns that timeline.  It returns an error message
    exactly when the URL is missing or empty ("No video URL provided") or
    the download answers another status ("Failed to download video from
    the URL provided"); no analysis is run in either case. *)
Theorem endpoint_results (w : World) (video_url : option string)
    (input_seconds : Z) :
  (forall timeline,
      analyze_video_endpoint w video_url input_seconds
      = Ok (analysis_result timeline)
      <-> exists url,
            video_url = Some url /\ url <> ""%string
            /\ http_status w url = 200
            /\ analyze_video_stream w (temp_file w url) input_seconds
               = Ok timeline)
  /\ (forall message,
        analyze_video_endpoint w video_url input_seconds
        = Ok (error message)
        <-> ((video_url = None \/ video_url = Some ""%string)
             /\ message = "No video URL provided"%string)
            \/ (exists url,
                  video_url = Some url /\ url <> ""%string
                  /\ http_status w url <> 200
                  /\ message
                     = "Failed to download video from the URL provided"
                         %string)).
Proof.
  unfold analyze_video_endpoint, download_video.
  destruct video_url as [[|c url]|].
  - split.
    + intros tl. split; [discriminate|].
      intros [u [Hu [Hne _]]]. injection Hu as <-. contradiction.
    + intros m. split.
      * intros H. injection H as <-. left. auto.
      * intros [[_ ->] | [u [Hu [Hne _]]]]; [reflexivity|].
        injection Hu as <-. contradiction.
  - destruct (Z.eqb_spec (http_status w (String c url)) 200) as [Hs | Hs].
    + split.
      * intros tl. split.
        -- destruct (analyze_video_stream w (temp_file w (String c url))
                       input_seconds) as [tl'|e] eqn:Ha; [|discriminate].
           cbn [bind]. intros H. injection H as <-.
           exists (String c url). split; [reflexivity|].
           split; [discriminate|]. split; [exact Hs | exact Ha].
        -- intros [u [Hu [_ [_ Ha]]]]. injection Hu as <-.
           rewrite Ha. reflexivity.
      * intros m. split.
        -- destruct (analyze_video_stream w (temp_file w (String c url))
                       input_seconds); discriminate.
        -- intros [[[H | H] _] | [u [Hu [_ [Hns _]]]]];
             [discriminate | discriminate |].
           injection Hu as <-. contradiction.
    + split.
      * intros tl. split; [discriminate|].
        intros [u [Hu [_ [Hs' _]]]]. injection Hu as <-. contradiction.
      * intros m. split.
        -- intros H. injection H as <-. right.
           exists (String c url). split; [reflexivity|].
           split; [discriminate|]. split; [exact Hs | reflexivity].
        -- intros [[[H | H] _] | [u [_ [_ [_ ->]]]]];
             [discriminate | discriminate | reflexivity].
  - split.
    + intros tl. split; [discriminate|].
      intros [u [Hu _]]. discriminate.
    + intros m. split.
      * intros H. injection H as <-. left. auto.
      * intros [[_ ->] | [u [Hu _]]]; [reflexivity | discriminate].
Qed.

(** ** The video name *)

Lemma string_append_assoc (s1 s2 s3 : string) :
  (s1 ++ (s2 ++ s3))%string = ((s1 ++ s2) ++ s3)%string.
Proof.
  induction s1 as [|c s1 IH]; [reflexivity|].
  cbn [String.append]. rewrite IH. reflexivity.
Qed.

Lemma occurs_app (c : ascii) (s1 s2 : string) :
  occurs c (s1 ++ s2) = occurs c s1 || occurs c s2.
Proof.
  induction s1 as [|c1 s1 IH]; [reflexivity|].
  cbn [String.append occurs]. rewrite IH, orb_assoc. reflexivity.
Qed.

Lemma split_dot_0_no_dot (s : string) : occurs "." (split_dot_0 s) = false.
Proof.
  induction s as [|c s IH]; [reflexivity|].
  cbn [split_dot_0]. destruct (Ascii.eqb c ".") eqn:E; [reflexivity|].
  cbn [occurs]. rewrite E, IH. reflexivity.
Qed.

Lemma split_dot_0_occurs (c : ascii) (s : string) :
  occurs c s = false -> occurs c (split_dot_0 s) = false.
Proof.
  induction s as [|c' s IH]; [reflexivity|].
  cbn [occurs split_dot_0]. intros H. apply orb_false_iff in H.
  destruct H as [Hc Hs].
  destruct (Ascii.eqb c' "."); [reflexivity|].
  cbn [occurs]. rewrite Hc, (IH Hs). reflexivity.
Qed.

Lemma basename_from_no_slash (p : string) :
  forall acc q,
    acc = (q ++ p)%string -> occurs "/" q = false ->
    occurs "/" (basename_from acc p) = false.
Proof.
  induction p as [|c p IH]; intros acc q Hacc Hq.
  - cbn [basename_from]. rewrite Hacc, occurs_app, Hq. reflexivity.
  - cbn [basename_from]. destruct (Ascii.eqb c "/") eqn:E.
    + apply (IH p ""%string); reflexivity.
    + apply (IH acc (q ++ String c "")%string).
      * rewrite Hacc, <- string_append_assoc. reflexivity.
      * rewrite occurs_app, Hq. cbn [occurs]. rewrite E. reflexivity.
Qed.

Lemma split_dot_0_prefix (s : string) :
  exists rest, s = (split_dot_0 s ++ rest)%string.
Proof.
  induction s as [|c s [rest IH]].
  - exists ""%string. reflexivity.
  - cbn [split_dot_0]. destruct (Ascii.eqb c ".").
    + exists (String c s). reflexivity.
    + exists rest. cbn [String.append]. rewrite <- IH. reflexivity.
Qed.

Lemma basename_from_suffix (p : string) :
  forall acc q,
    acc = (q ++ p)%string ->
    exists dir, acc = (dir ++ basename_from acc p)%string.
Proof.
  induction p as [|c p IH]; intros acc q Hacc.
  - exists ""%string. reflexivity.
  - cbn [basename_from]. destruct (Ascii.eqb c "/").
    + destruct (IH p ""%string eq_refl) as [dir Hdir].
      exists (q ++ String c dir)%string.
      rewrite Hacc, <- string_append_assoc. cbn [String.append].
      rewrite <- Hdir. reflexivity.
    + apply (IH acc (q ++ String c "")%string).
      rewrite Hacc, <- string_append_assoc. reflexivity.
Qed.

(** X13.  The video name used for the blob names contains neither a dot
    nor a slash, and the path reads: a directory part, the video name,
    then the rest (the extension). *)
Theorem video_name_has_no_dot_no_slash (video_path : string) :
  occurs "." (split_dot_0 (basename video_path)) = false
  /\ occurs "/" (split_dot_0 (basename video_path)) = false
  /\ exists dir rest,
       video_path
       = (dir ++ split_dot_0 (basename video_path) ++ rest)%string.
Proof.
  split; [apply split_dot_0_no_dot|]. split.
  - apply split_dot_0_occurs. unfold basename.
    apply (basename_from_no_slash video_path video_path ""%string);
      reflexivity.
  - unfold basename.
    destruct (basename_from_suffix video_path video_path ""%string eq_refl)
      as [dir Hdir].
    destruct (split_dot_0_prefix (basename_from video_path video_path))
      as [rest Hrest].
    exists dir, rest. rewrite <- Hrest. exact Hdir.
Qed.

(** ** The frames that are not sampled *)

Section Unsampled.

Variable w : World.
Variable video_name : string.




End Unsampled.



(** ** The threshold *)

(** X15.  Lowering the threshold never removes a tab switch: a pair of
    frames reported at one threshold is reported at every lower one. *)
Theorem lower_threshold_keeps_tab_switch (prev curr : option Frame)
    (threshold threshold' : Q) :
  (threshold' <= threshold)%Q ->
  detect_tab_switch prev curr threshold = Ok true ->
  detect_tab_switch prev curr threshold' = Ok true.
Proof.
  intros Hle. destruct prev as [p|], curr as [c|]; try discriminate.
  unfold detect_tab_switch.
  destruct (cvtColor_BGR2GRAY p) as [pg|e]; [|discriminate].
  destruct (cvtColor_BGR2GRAY c) as [cg|e]; [|discriminate].
  cbn [bind]. destruct (absdiff pg cg) as [d|e]; [|discriminate].
  cbn [bind]. intros H. injection H as H. f_equal.
  apply Qltb_true_iff in H. apply Qltb_true_iff.
  eapply Qle_lt_trans; eassumption.
Qed.

Lemma lower_threshold_keeps_tab_switch_demo :
  (10 <= default_threshold)%Q
  /\ detect_tab_switch (Some dark_frame) (Some bright_frame)
                       default_threshold = Ok true
  /\ detect_tab_switch (Some dark_frame) (Some bright_frame) 10 = Ok true.
Proof.
  assert (Hle : (10 <= default_threshold)%Q) by (vm_compute; discriminate).
  assert (Hd : detect_tab_switch (Some dark_frame) (Some bright_frame)
                                 default_threshold = Ok true)
    by (vm_compute; reflexivity).
  split; [exact Hle|]. split; [exact Hd|].
  exact (lower_threshold_keeps_tab_switch (Some dark_frame)
           (Some bright_frame) default_threshold 10 Hle Hd).
Defined.

(** ** Still streams *)

Lemma sampled_from_In (fps : Q) (frames : list Frame) :
  forall count last second frame,
    In (second, frame) (sampled_from fps count last frames) ->
    In frame frames.
Proof.
  induction frames as [|f rest IH]; intros count last second frame Hin;
    [contradiction|].
  cbn [sampled_from] in Hin.
  destruct (py_int (inject_Z (count + 1) / fps) >? last).
  - destruct Hin as [Heq | Hin].
    + injection Heq as _ <-. left. reflexivity.
    + right. eapply IH. exact Hin.
  - right. eapply IH. exact Hin.
Qed.

Lemma with_previous_In (samples : list (Z * Frame)) :
  forall p0 prev sample,
    In (prev, sample) (with_previous p0 samples) ->
    (prev = p0 \/ exists second frame,
                    In (second, frame) samples /\ prev = Some frame)
    /\ In sample samples.
Proof.
  induction samples as [|[s f] rest IH]; intros p0 prev sample Hin;
    [contradiction|].
  cbn [with_previous] in Hin. destruct Hin as [Heq | Hin].
  - injection Heq as <- <-. split; [left; reflexivity | left; reflexivity].
  - destruct (IH _ _ _ Hin) as [[-> | [s' [f' [Hin' ->]]]] Hs].
    + split; [|right; exact Hs]. right. exists s, f.
      split; [left; reflexivity | reflexivity].
    + split; [|right; exact Hs]. right. exists s', f'.
      split; [right; exact Hin' | reflexivity].
Qed.

Lemma Forall2_Forall_r_In {A B : Type} (R : A -> B -> Prop) (P : B -> Prop)
    (la : list A) (lb : list B) :
  (forall a b, In a la -> R a b -> P b) -> Forall2 R la lb -> Forall P lb.
Proof.
  intros HRP H. induction H as [|a b la lb HR _ IH]; constructor.
  - apply (HRP a b); [left; reflexivity | exact HR].
  - apply IH. intros a' b' Hin. apply HRP. right. exact Hin.
Qed.

(** X16.  A stream whose frames are all the same (nonempty) frame is
    analysed without error and none of its records reports a tab
    switch. *)
Theorem still_stream_never_switches (w : World) (video_path : string)
    (input_seconds : Z) (frame : Frame) :
  frame <> [] ->
  Forall (fun f => f = frame) (cap_frames (open_video w video_path)) ->
  exists timeline,
    analyze_video_stream w video_path input_seconds = Ok timeline
    /\ Forall (fun r => tab_switched r = "false"%string) timeline.
Proof.
  intros Hne Hall.
  assert (Hwf : uniform_frames (pred (List.length frame))
                  (cap_frames (open_video w video_path))).
  { eapply Forall_impl; [|exact Hall]. cbv beta. intros f ->.
    destruct frame; [congruence | reflexivity]. }
  destruct (analyze_video_stream_returns w video_path input_seconds _ Hwf)
    as [timeline Hok].
  exists timeline. split; [exact Hok|].
  destruct (analyze_video_stream_run _ _ _ _ Hok) as [st [Hrun <-]].
  unfold analyze_video_run in Hrun.
  destruct (run_loop_tab _ _ _ _ _ _ Hrun) as [new [Hr Hf]].
  cbn [initial_state results_list app prev_frame frame_count
       last_processed_second] in Hr, Hf.
  rewrite Hr. eapply Forall2_Forall_r_In; [|exact Hf].
  intros [prev [second f]] r Hin [_ [changed [Hd ->]]].
  cbn [fst snd] in Hd.
  destruct (with_previous_In _ _ _ _ Hin) as [Hprev Hs].
  rewrite Forall_forall in Hall.
  assert (Hfr : f = frame) by (apply Hall; eapply sampled_from_In; exact Hs).
  subst f.
  destruct Hprev as [-> | [s' [f' [Hin' ->]]]].
  - cbn in Hd. injection Hd as <-. reflexivity.
  - assert (Hf' : f' = frame)
      by (apply Hall; eapply sampled_from_In; exact Hin').
    subst f'.
    rewrite detect_tab_switch_same_frame in Hd
      by (auto; vm_compute; discriminate).
    injection Hd as <-. reflexivity.
Qed.

Lemma still_stream_never_switches_demo :
  bright_frame <> []
  /\ Forall (fun f => f = bright_frame)
            (cap_frames (open_video still_world "/tmp/still.mp4"))
  /\ exists timeline,
       analyze_video_stream still_world "/tmp/still.mp4" 3 = Ok timeline
       /\ Forall (fun r => tab_switched r = "false"%string) timeline.
Proof.
  assert (Hne : bright_frame <> []) by discriminate.
  assert (Hall : Forall (fun f => f = bright_frame)
                   (cap_frames (open_video still_world "/tmp/still.mp4")))
    by (vm_compute; repeat constructor).
  split; [exact Hne|]. split; [exact Hall|].
  exact (still_stream_never_switches still_world "/tmp/still.mp4" 3
           bright_frame Hne Hall).
Defined.

(** ** Integer frame rates *)

Lemma py_int_div (k f : Z) :
  0 <= k -> 0 < f -> py_int (inject_Z k / inject_Z f) = k / f.
Proof.
  intros Hk Hf. unfold py_int.
  assert (H : (0 <= inject_Z k / inject_Z f)%Q).
  { unfold Qdiv. apply Qmult_le_0_compat.
    - change 0%Q with (inject_Z 0). rewrite <- Zle_Qle. exact Hk.
    - apply Qlt_le_weak, Qinv_lt_0_compat.
      change 0%Q with (inject_Z 0). rewrite <- Zlt_Qlt. exact Hf. }
  apply Qle_bool_iff in H. rewrite H. symmetry. apply Zdiv_Qdiv.
Qed.

Lemma StronglySorted_lt_ext (l : list Z) :
  forall l',
    StronglySorted Z.lt l -> StronglySorted Z.lt l' ->
    (forall x, In x l <-> In x l') -> l = l'.
Proof.
  induction l as [|a l IH]; intros [|b l'] Hs Hs' Hext.
  - reflexivity.
  - exfalso. apply (Hext b). left. reflexivity.
  - exfalso. apply (Hext a). left. reflexivity.
  - apply StronglySorted_inv in Hs. destruct Hs as [Hs Ha].
    apply StronglySorted_inv in Hs'. destruct Hs' as [Hs' Hb].
    rewrite Forall_forall in Ha, Hb.
    assert (Hab : a = b).
    { destruct (proj1 (Hext a) (or_introl eq_refl)) as [E | Hin];
        [congruence|].
      destruct (proj2 (Hext b) (or_introl eq_refl)) as [E | Hin'];
        [congruence|].
      specialize (Ha _ Hin'). specialize (Hb _ Hin). lia. }
    subst b. f_equal. apply IH; [exact Hs | exact Hs' |].
    intros x. split; intros Hin.
    + destruct (proj1 (Hext x) (or_intror Hin)) as [E | Hin'];
        [|exact Hin'].
      specialize (Ha _ Hin). lia.
    + destruct (proj2 (Hext x) (or_intror Hin)) as [E | Hin'];
        [|exact Hin'].
      specialize (Hb _ Hin). lia.
Qed.

Lemma seq_Z_sorted (n a : nat) :
  StronglySorted Z.lt (map Z.of_nat (seq a n)).
Proof.
  revert a. induction n as [|n IH]; intros a; cbn [seq map]; constructor.
  - apply IH.
  - apply Forall_forall. intros x Hx. apply in_map_iff in Hx.
    destruct Hx as [y [<- Hy]]. apply in_seq in Hy. lia.
Qed.

(** X17.  At an integer frame rate of at least 2 (the fallback rate 30
    included), a stream of [n] frames, [n] at least 1, gives one record
    for each of the seconds 0, 1, ..., [n / fps] (integer division), in
    this order, and nothing else: [n / fps + 1] records. *)
Theorem integer_rate_seconds (w : World) (video_path : string)
    (input_seconds : Z) (timeline : list ObservationRecord) (rate : Z) :
  effective_fps (open_video w video_path) = inject_Z rate ->
  2 <= rate ->
  cap_frames (open_video w video_path) <> [] ->
  analyze_video_stream w video_path input_seconds = Ok timeline ->
  map time timeline
  = map Z.of_nat
        (seq 0 (S (Z.to_nat
                     (Z.of_nat (List.length
                                  (cap_frames (open_video w video_path)))
                      / rate)))).
Proof.
  intros Hfps Hrate Hne Hok.
  destruct (analyze_video_stream_run _ _ _ _ Hok) as [st [Hrun <-]].
  rewrite (timeline_times _ _ _ _ Hrun).
  set (n := Z.of_nat (List.length (cap_frames (open_video w video_path)))).
  assert (Hn : 1 <= n).
  { subst n. destruct (cap_frames (open_video w video_path));
      [congruence | cbn [List.length]; lia]. }
  apply StronglySorted_lt_ext.
  - apply sampled_frames_increasing.
  - apply seq_Z_sorted.
  - intros second. unfold sampled_frames. rewrite Hfps. split.
    + intros Hin. destruct (sampled_from_sound _ _ _ _ _ Hin) as [k [Hk ->]].
      fold n in Hk. rewrite py_int_div by lia.
      apply in_map_iff. exists (Z.to_nat (k / rate)).
      assert (0 <= k / rate) by (apply Z.div_pos; lia).
      assert (k / rate <= n / rate) by (apply Z.div_le_mono; lia).
      split; [lia|]. apply in_seq. lia.
    + intros Hin. apply in_map_iff in Hin. destruct Hin as [m [<- Hm]].
      apply in_seq in Hm.
      assert (Hfpos : (0 < inject_Z rate)%Q).
      { change 0%Q with (inject_Z 0). rewrite <- Zlt_Qlt. lia. }
      assert (0 <= n / rate) by (apply Z.div_pos; lia).
      destruct (Z.eq_dec (Z.of_nat m) 0) as [Hz | Hnz].
      * replace (Z.of_nat m) with (py_int (inject_Z 1 / inject_Z rate)).
        -- apply sampled_from_complete; [exact Hfpos | fold n; lia |].
           rewrite py_int_div by lia. rewrite Z.div_small by lia. lia.
        -- rewrite py_int_div by lia. rewrite Z.div_small by lia. lia.
      * replace (Z.of_nat m)
          with (py_int (inject_Z (Z.of_nat m * rate) / inject_Z rate)).
        -- assert (Z.of_nat m * rate <= n).
           { apply Z.le_trans with (n / rate * rate).
             - apply Z.mul_le_mono_nonneg_r; lia.
             - rewrite Z.mul_comm. apply Z.mul_div_le. lia. }
           apply sampled_from_complete; [exact Hfpos | fold n; nia |].
           rewrite py_int_div by nia. rewrite Z.div_mul by lia. lia.
        -- rewrite py_int_div by nia. apply Z.div_mul. lia.
Qed.

Lemma integer_rate_seconds_demo :
  effective_fps (open_video still_world "/tmp/still.mp4") = inject_Z 30
  /\ 2 <= 30
  /\ cap_frames (open_video still_world "/tmp/still.mp4") <> []
  /\ exists timeline,
       analyze_video_stream still_world "/tmp/still.mp4" 3 = Ok timeline
       /\ map time timeline = [0; 1; 2].
Proof.
  assert (Hfps : effective_fps (open_video still_world "/tmp/still.mp4")
                 = inject_Z 30) by reflexivity.
  assert (Hrate : 2 <= 30) by lia.
  assert (Hne : cap_frames (open_video still_world "/tmp/still.mp4") <> [])
    by discriminate.
  split; [exact Hfps|]. split; [exact Hrate|]. split; [exact Hne|].
  destruct (analyze_video_stream still_world "/tmp/still.mp4" 3)
    as [timeline|e] eqn:Hok.
  - exists timeline. split; [reflexivity|].
    exact (integer_rate_seconds still_world "/tmp/still.mp4" 3 timeline 30
             Hfps Hrate Hne Hok).
  - vm_compute in Hok. discriminate Hok.
Defined.
